(** * DSA key handling utilities (pkcs11/util/dsa.py)

    A shallow embedding of [pkcs11.util.dsa]: the conversions between
    PKCS #11 attribute maps / raw signatures and the RFC 3279 DER structures
    [Dss-Parms], [DSAPublicKey] and [Dss-Sig-Value].  The DER codec is the
    one of pyasn1 ([pyasn1.codec.der.encoder] / [decoder]), modelled at the
    level of bytes; Python's exceptions become the [PyError] branch of a
    small error monad. *)

From Stdlib Require Import ZArith Lia Strings.Byte.
From stdpp Require Import base list gmap.

Open Scope Z_scope.

(** ** Python exceptions raised along the paths of this module *)

Inductive PyError :=
  | PyAsn1Error      (** pyasn1 decode / encode failure (DECODE_ERROR) *)
  | KeyError         (** missing key in the attribute map (MISSING_ATTRIBUTE) *)
  | OverflowError    (** [int.to_bytes] cannot fit the value (OVERFLOW) *)
  | ValueError.      (** value violating a precondition (INVALID_INPUT) *)

Inductive result (A : Type) :=
  | Ok (a : A)
  | Err (e : PyError).
Arguments Ok {A} a.
Arguments Err {A} e.

Definition bind {A B} (m : result A) (f : A -> result B) : result B :=
  match m with Ok a => f a | Err e => Err e end.

Notation "'let*' x := m 'in' f" := (bind m (fun x => f))
  (at level 200, x name, m at level 100, f at level 200).
Notation "'let*' ' p := m 'in' f" := (bind m (fun x => match x with p => f end))
  (at level 200, p pattern, m at level 100, f at level 200).

(** ** Python [bytes] *)

Definition bytes := list byte.

Definition byte_val (b : byte) : Z := Z.of_N (Byte.to_N b).

(** The byte holding [z mod 256]. *)
Definition byte_of_Z (z : Z) : byte :=
  match Byte.of_N (Z.to_N (z mod 256)) with
  | Some b => b
  | None => Byte.x00
  end.

(** [int.from_bytes(bs, byteorder='big')]: big-endian unsigned; [b''] is 0. *)
Definition from_bytes (bs : bytes) : Z :=
  fold_left (fun acc b => acc * 256 + byte_val b) bs 0.

(** The [k] low-order bytes of [n], big-endian (two's complement for
    negative [n]). *)
Fixpoint be_bytes (k : nat) (n : Z) : bytes :=
  match k with
  | O => []
  | S k' => be_bytes k' (n / 256) ++ [byte_of_Z n]
  end.

(** [n.to_bytes(k, byteorder='big')] (unsigned): [OverflowError] for a
    negative [n] or one needing more than [k] bytes. *)
Definition to_bytes (n : Z) (k : nat) : result bytes :=
  if n <? 0 then Err OverflowError
  else if 256 ^ Z.of_nat k <=? n then Err OverflowError
  else Ok (be_bytes k n).

(** [int.bit_length()]. *)
Definition bit_length (n : Z) : Z :=
  if n =? 0 then 0 else Z.log2 (Z.abs n) + 1.

(** [int.from_bytes(bs, byteorder='big', signed=True)]. *)
Definition from_bytes_signed (bs : bytes) : Z :=
  match bs with
  | [] => 0
  | _ =>
    let u := from_bytes bs in
    let w := 8 * Z.of_nat (length bs) in
    if 2 ^ (w - 1) <=? u then u - 2 ^ w else u
  end.

(** ** The missing helpers of this package *)

(** Modelled from the spec: the attribute identifiers of
    [pkcs11.constants.Attribute] used here, the closed enumeration
    {BASE, PRIME, SUBPRIME, VALUE} of the spec's data model. *)
Inductive Attribute := BASE | PRIME | SUBPRIME | VALUE.

#[global] Instance Attribute_eq_dec : EqDecision Attribute.
Proof. solve_decision. Defined.

Definition Attribute_to_nat (a : Attribute) : nat :=
  match a with BASE => 0 | PRIME => 1 | SUBPRIME => 2 | VALUE => 3 end%nat.
Definition Attribute_of_nat (n : nat) : option Attribute :=
  match n with
  | 0 => Some BASE | 1 => Some PRIME | 2 => Some SUBPRIME | 3 => Some VALUE
  | _ => None
  end%nat.

#[global] Instance Attribute_countable : Countable Attribute.
Proof.
  refine (inj_countable' Attribute_to_nat
            (fun n => default BASE (Attribute_of_nat n)) _).
  by intros [].
Defined.

(** A Python dict from attributes to byte strings. *)
Abbreviation attrs := (gmap Attribute bytes).

(** [dict[key]]: [KeyError] when absent. *)
Definition getitem (m : attrs) (k : Attribute) : result bytes :=
  match m !! k with Some v => Ok v | None => Err KeyError end.

(** Modelled from the spec: [pkcs11.util.biginteger], the shortest
    big-endian byte string of a non-negative integer ("no leading zero
    byte unless the value is zero, in which case result is a single zero
    byte"); a negative integer is refused with INVALID_INPUT. *)
Definition biginteger (n : Z) : result bytes :=
  if n <? 0 then Err ValueError
  else if n =? 0 then Ok [Byte.x00]
  else to_bytes n (Z.to_nat ((bit_length n + 7) / 8)).

(** ** pyasn1's DER encoder (the parts used by INTEGER and SEQUENCE) *)

Module DerEncoder.

(** [IntegerEncoder.encodeValue]: zero is the single octet 0x00, any other
    value [to_bytes(value, signed=True)] of pyasn1's compat layer, i.e.
    [bit_length] bits, one more when that is a multiple of 8, rounded up
    to whole octets. *)
Definition int_content (v : Z) : bytes :=
  if v =? 0 then [Byte.x00]
  else
    let L := bit_length v in
    let L' := if L mod 8 =? 0 then L + 1 else L in
    be_bytes (Z.to_nat (L' / 8 + (if L' mod 8 =? 0 then 0 else 1))) v.

(** The loop of [encodeLength]:
    [while length: substrate = (length & 0xff,) + substrate; length >>= 8].
    Each round consumes 8 bits, so [bit_length n] rounds are enough. *)
Fixpoint length_octets (fuel : nat) (n : Z) : bytes :=
  match fuel with
  | O => []
  | S f =>
    if n =? 0 then []
    else length_octets f (Z.shiftr n 8) ++ [byte_of_Z (Z.land n 255)]
  end.

(** [encodeLength] in definite mode. *)
Definition encode_length (n : Z) : result bytes :=
  if n <? 128 then Ok [byte_of_Z n]
  else
    let substrate := length_octets (Z.to_nat (bit_length n)) n in
    if (126 <? length substrate)%nat then Err PyAsn1Error
    else Ok (byte_of_Z (128 + Z.of_nat (length substrate)) :: substrate).

(** Tag octet, length octets, contents. *)
Definition tlv (tag : byte) (content : bytes) : result bytes :=
  let* l := encode_length (Z.of_nat (length content)) in
  Ok (tag :: l ++ content).

Definition encode_integer (v : Z) : result bytes :=
  tlv Byte.x02 (int_content v).

Fixpoint encode_components (vs : list Z) : result bytes :=
  match vs with
  | [] => Ok []
  | v :: vs' =>
    let* e := encode_integer v in
    let* es := encode_components vs' in
    Ok (e ++ es)
  end.

(** A SEQUENCE whose components are all INTEGERs (constructed tag 0x30). *)
Definition encode_sequence (vs : list Z) : result bytes :=
  let* c := encode_components vs in
  tlv Byte.x30 c.

End DerEncoder.

(** ** pyasn1's DER decoder, against the schemas of this module *)

Module DerDecoder.

(** Length octets: short form, long form with [first & 0x7F] octets;
    0x80 (indefinite length) is refused by the DER codec. *)
Definition decode_length (s : bytes) : result (Z * bytes) :=
  match s with
  | [] => Err PyAsn1Error
  | b :: rest =>
    let first := byte_val b in
    if first <? 128 then Ok (first, rest)
    else if first =? 128 then Err PyAsn1Error
    else
      let size := Z.to_nat (first - 128) in
      if (length rest <? size)%nat then Err PyAsn1Error
      else Ok (from_bytes (take size rest), drop size rest)
  end.

(** One TLV with the expected tag: its contents and the remaining
    substrate (underrun is an error). *)
Definition decode_tlv (tag : byte) (s : bytes) : result (bytes * bytes) :=
  match s with
  | [] => Err PyAsn1Error
  | t :: rest =>
    if negb (Byte.eqb t tag) then Err PyAsn1Error
    else
      let* '(len, rest') := decode_length rest in
      let n := Z.to_nat len in
      if (length rest' <? n)%nat then Err PyAsn1Error
      else Ok (take n rest', drop n rest')
  end.

(** [IntegerDecoder]: empty contents decode to 0, otherwise signed
    big-endian. *)
Definition decode_integer (s : bytes) : result (Z * bytes) :=
  let* '(c, rest) := decode_tlv Byte.x02 s in
  Ok (from_bytes_signed c, rest).

(** The components of a SEQUENCE of [k] required INTEGERs: a missing
    component and an excessive one are both errors. *)
Fixpoint decode_components (k : nat) (c : bytes) : result (list Z) :=
  match k with
  | O => match c with [] => Ok [] | _ :: _ => Err PyAsn1Error end
  | S k' =>
    let* '(v, c') := decode_integer c in
    let* vs := decode_components k' c' in
    Ok (v :: vs)
  end.

Definition decode_sequence (k : nat) (s : bytes) : result (list Z * bytes) :=
  let* '(c, rest) := decode_tlv Byte.x30 s in
  let* vs := decode_components k c in
  Ok (vs, rest).

End DerDecoder.

(** ** RFC 3279 schemas ([pyasn1_modules.rfc3279]) *)

(** [Dss-Parms ::= SEQUENCE { p INTEGER, q INTEGER, g INTEGER }] *)
Record Dss_Parms := mkDss_Parms { p : Z; q : Z; g : Z }.

(** [Dss-Sig-Value ::= SEQUENCE { r INTEGER, s INTEGER }] *)
Record Dss_Sig_Value := mkDss_Sig_Value { r : Z; s : Z }.

(** [encoder.encode(asn1)] *)
Definition encode_Dss_Parms (x : Dss_Parms) : result bytes :=
  DerEncoder.encode_sequence [p x; q x; g x].
Definition encode_Dss_Sig_Value (x : Dss_Sig_Value) : result bytes :=
  DerEncoder.encode_sequence [r x; s x].
(** [DSAPublicKey ::= INTEGER] *)
Definition encode_DSAPublicKey (y : Z) : result bytes :=
  DerEncoder.encode_integer y.

(** [decoder.decode(der, asn1Spec=...)]: the value and the remainder. *)
Definition decode_Dss_Parms (der : bytes) : result (Dss_Parms * bytes) :=
  let* '(vs, rest) := DerDecoder.decode_sequence 3 der in
  match vs with
  | [p; q; g] => Ok (mkDss_Parms p q g, rest)
  | _ => Err PyAsn1Error
  end.
Definition decode_Dss_Sig_Value (der : bytes) : result (Dss_Sig_Value * bytes) :=
  let* '(vs, rest) := DerDecoder.decode_sequence 2 der in
  match vs with
  | [r; s] => Ok (mkDss_Sig_Value r s, rest)
  | _ => Err PyAsn1Error
  end.
Definition decode_DSAPublicKey (der : bytes) : result (Z * bytes) :=
  DerDecoder.decode_integer der.

(** ** pkcs11/util/dsa.py *)

Definition decode_dsa_domain_parameters (der : bytes) : result attrs :=
  let* '(params, _) := decode_Dss_Parms der in
  let* base := biginteger (g params) in
  let* prime := biginteger (p params) in
  let* subprime := biginteger (q params) in
  Ok (<[BASE := base]> (<[PRIME := prime]> (<[SUBPRIME := subprime]> ∅))).

Definition encode_dsa_domain_parameters (obj : attrs) : result bytes :=
  let* g := getitem obj BASE in
  let* p := getitem obj PRIME in
  let* q := getitem obj SUBPRIME in
  encode_Dss_Parms (mkDss_Parms (from_bytes p) (from_bytes q) (from_bytes g)).

Definition encode_dsa_public_key (key : attrs) : result bytes :=
  let* v := getitem key VALUE in
  encode_DSAPublicKey (from_bytes v).

Definition decode_dsa_public_key (der : bytes) : result bytes :=
  let* '(asn1, _) := decode_DSAPublicKey der in
  biginteger asn1.

(** [part = len(signature) // 2; r, s = signature[:part], signature[part:]] *)
Definition encode_dsa_signature (signature : bytes) : result bytes :=
  let part := (length signature / 2)%nat in
  let r := take part signature in
  let s := drop part signature in
  encode_Dss_Sig_Value (mkDss_Sig_Value (from_bytes r) (from_bytes s)).

(** [r.to_bytes(20, byteorder='big') + s.to_bytes(20, byteorder='big')] *)
Definition decode_dsa_signature (der : bytes) : result bytes :=
  let* '(asn1, _) := decode_Dss_Sig_Value der in
  let* rb := to_bytes (r asn1) 20 in
  let* sb := to_bytes (s asn1) 20 in
  Ok (rb ++ sb).

Definition zeros (n : nat) : bytes := repeat Byte.x00 n.

(** A minimal big-endian buffer in the sense of the spec's integer codec:
    a single byte (0 is [b'\x00']), or no leading zero byte. *)
Definition minimal_be (bs : bytes) : bool :=
  match bs with
  | [] => false
  | [_] => true
  | b :: _ => negb (Byte.eqb b Byte.x00)
  end.


(** * Properties *)

(** ** Bytes and big-endian integers *)

Lemma byte_val_bound (b : byte) : 0 <= byte_val b < 256.
Proof.
  unfold byte_val. pose proof (Byte.to_N_bounded b). lia.
Qed.

Lemma byte_val_of_Z (z : Z) : byte_val (byte_of_Z z) = z mod 256.
Proof.
  unfold byte_of_Z, byte_val.
  pose proof (Z.mod_pos_bound z 256 ltac:(lia)) as Hb.
  pose proof (Byte.to_of_N_option_map (Z.to_N (z mod 256))) as H.
  destruct (N.leb_spec (Z.to_N (z mod 256)) 255); [|lia].
  destruct (Byte.of_N _) as [b|] eqn:E; simpl in H; [|discriminate].
  injection H as H. rewrite H. lia.
Qed.

Lemma byte_of_Z_val (b : byte) : byte_of_Z (byte_val b) = b.
Proof.
  unfold byte_of_Z, byte_val.
  pose proof (Byte.to_N_bounded b).
  rewrite Z.mod_small by lia. rewrite N2Z.id, Byte.of_to_N. reflexivity.
Qed.

Lemma byte_of_Z_mod (z : Z) : byte_of_Z (z mod 256) = byte_of_Z z.
Proof. unfold byte_of_Z. rewrite Zmod_mod. reflexivity. Qed.

Lemma from_bytes_acc (bs : bytes) (acc : Z) :
  fold_left (fun acc b => acc * 256 + byte_val b) bs acc
  = acc * 256 ^ Z.of_nat (length bs) + from_bytes bs.
Proof.
  unfold from_bytes. revert acc. induction bs as [|b bs IH]; intros acc; simpl.
  - lia.
  - rewrite (IH (acc * 256 + byte_val b)), (IH (0 * 256 + byte_val b)).
    rewrite Nat2Z.inj_succ, Z.pow_succ_r by lia. ring.
Qed.

Lemma from_bytes_cons (b : byte) (bs : bytes) :
  from_bytes (b :: bs) = byte_val b * 256 ^ Z.of_nat (length bs) + from_bytes bs.
Proof. unfold from_bytes at 1. simpl. rewrite from_bytes_acc. reflexivity. Qed.

Lemma from_bytes_snoc (bs : bytes) (b : byte) :
  from_bytes (bs ++ [b]) = from_bytes bs * 256 + byte_val b.
Proof. unfold from_bytes. rewrite fold_left_app. reflexivity. Qed.

Lemma from_bytes_app (xs ys : bytes) :
  from_bytes (xs ++ ys) = from_bytes xs * 256 ^ Z.of_nat (length ys) + from_bytes ys.
Proof.
  unfold from_bytes at 1. rewrite fold_left_app. fold (from_bytes xs).
  apply from_bytes_acc.
Qed.

Lemma from_bytes_bound (bs : bytes) :
  0 <= from_bytes bs < 256 ^ Z.of_nat (length bs).
Proof.
  induction bs as [|b bs IH]; [unfold from_bytes; simpl; lia|].
  rewrite from_bytes_cons. simpl length. rewrite Nat2Z.inj_succ, Z.pow_succ_r by lia.
  pose proof (byte_val_bound b). nia.
Qed.

Lemma length_be_bytes (k : nat) (n : Z) : length (be_bytes k n) = k.
Proof.
  revert n. induction k as [|k IH]; intros n; simpl; [done|].
  rewrite length_app, IH. simpl. lia.
Qed.

Lemma from_bytes_be_bytes (k : nat) (n : Z) :
  from_bytes (be_bytes k n) = n mod 256 ^ Z.of_nat k.
Proof.
  revert n. induction k as [|k IH]; intros n.
  - simpl. rewrite Z.mod_1_r. reflexivity.
  - simpl be_bytes. rewrite from_bytes_snoc, IH, byte_val_of_Z.
    rewrite Nat2Z.inj_succ, Z.pow_succ_r by lia.
    rewrite Z.rem_mul_r by lia.
    ring.
Qed.

Lemma be_bytes_from_bytes (bs : bytes) :
  be_bytes (length bs) (from_bytes bs) = bs.
Proof.
  induction bs as [|b bs IH] using rev_ind; [done|].
  rewrite length_app, Nat.add_1_r. simpl be_bytes.
  rewrite from_bytes_snoc. pose proof (byte_val_bound b).
  rewrite Z.div_add_l, (Z.div_small (byte_val b)), Z.add_0_r, IH by lia.
  rewrite <- byte_of_Z_mod, Z.add_comm, Z.mod_add, (Z.mod_small (byte_val b)),
    byte_of_Z_val by lia.
  reflexivity.
Qed.

Lemma be_bytes_from_bytes' (k : nat) (bs : bytes) :
  length bs = k -> be_bytes k (from_bytes bs) = bs.
Proof. intros <-. apply be_bytes_from_bytes. Qed.

Lemma to_bytes_ok (n : Z) (k : nat) :
  0 <= n < 256 ^ Z.of_nat k -> to_bytes n k = Ok (be_bytes k n).
Proof.
  intros H. unfold to_bytes.
  destruct (Z.ltb_spec n 0); [lia|]. destruct (Z.leb_spec (256 ^ Z.of_nat k) n); [lia|].
  reflexivity.
Qed.

Lemma to_bytes_overflow (n : Z) (k : nat) :
  (n < 0 \/ 256 ^ Z.of_nat k <= n) -> to_bytes n k = Err OverflowError.
Proof.
  intros H. unfold to_bytes.
  destruct (Z.ltb_spec n 0); [done|]. destruct (Z.leb_spec (256 ^ Z.of_nat k) n); [done|lia].
Qed.

Lemma bit_length_spec (v : Z) :
  0 < v -> 1 <= bit_length v /\ 2 ^ (bit_length v - 1) <= v < 2 ^ bit_length v.
Proof.
  intros Hv. unfold bit_length.
  destruct (Z.eqb_spec v 0); [lia|]. rewrite Z.abs_eq by lia.
  pose proof (Z.log2_spec v Hv). pose proof (Z.log2_nonneg v).
  replace (Z.log2 v + 1 - 1) with (Z.log2 v) by lia.
  rewrite <- Z.add_1_r in *. lia.
Qed.

Lemma pow256 (k : Z) : 0 <= k -> 256 ^ k = 2 ^ (8 * k).
Proof. intros Hk. rewrite Z.pow_mul_r by lia. reflexivity. Qed.

Lemma from_bytes_signed_be_bytes (k : nat) (v : Z) :
  (1 <= k)%nat -> 0 <= v < 2 ^ (8 * Z.of_nat k - 1) ->
  from_bytes_signed (be_bytes k v) = v.
Proof.
  intros Hk Hv. unfold from_bytes_signed.
  destruct (be_bytes k v) as [|b bs] eqn:E.
  { pose proof (length_be_bytes k v) as L. rewrite E in L. simpl in L. lia. }
  rewrite <- E, length_be_bytes, from_bytes_be_bytes.
  assert (2 ^ (8 * Z.of_nat k - 1) < 2 ^ (8 * Z.of_nat k))
    by (apply Z.pow_lt_mono_r; lia).
  rewrite pow256, Z.mod_small by lia.
  destruct (Z.leb_spec (2 ^ (8 * Z.of_nat k - 1)) v); lia.
Qed.

(** The octet count chosen by pyasn1's signed [to_bytes]. *)
Lemma octet_count_spec (L' : Z) :
  let K := L' / 8 + (if L' mod 8 =? 0 then 0 else 1) in
  L' <= 8 * K < L' + 8 /\ (L' mod 8 <> 0 -> L' < 8 * K).
Proof.
  intros K. subst K. pose proof (Z.div_mod L' 8 ltac:(lia)).
  pose proof (Z.mod_pos_bound L' 8 ltac:(lia)).
  destruct (Z.eqb_spec (L' mod 8) 0); lia.
Qed.

Lemma int_content_pos (v : Z) :
  0 < v ->
  exists k : nat, DerEncoder.int_content v = be_bytes k v /\ (1 <= k)%nat /\
    v < 2 ^ (8 * Z.of_nat k - 1) /\ 8 * Z.of_nat k <= bit_length v + 8.
Proof.
  intros Hv. unfold DerEncoder.int_content.
  destruct (Z.eqb_spec v 0); [lia|].
  destruct (bit_length_spec v Hv) as [HL [Hlo Hhi]].
  set (L := bit_length v) in *.
  set (L' := if L mod 8 =? 0 then L + 1 else L).
  pose proof (octet_count_spec L') as [HK1 HK2].
  set (K := L' / 8 + (if L' mod 8 =? 0 then 0 else 1)) in *.
  assert (HLL : L < 8 * K /\ 8 * K <= L + 8).
  { subst L'. destruct (Z.eqb_spec (L mod 8) 0); [lia|]. specialize (HK2 n0). lia. }
  exists (Z.to_nat K). rewrite Z2Nat.id by lia.
  split; [reflexivity|]. split; [lia|]. split; [|lia].
  eapply Z.lt_le_trans; [exact Hhi|]. apply Z.pow_le_mono_r; lia.
Qed.

Lemma from_bytes_signed_int_content (v : Z) :
  0 <= v -> from_bytes_signed (DerEncoder.int_content v) = v.
Proof.
  intros Hv. destruct (Z.eq_dec v 0) as [->|Hne]; [reflexivity|].
  destruct (int_content_pos v ltac:(lia)) as (k & -> & Hk & Hlt & _).
  apply from_bytes_signed_be_bytes; lia.
Qed.

Lemma length_int_content (v N : Z) :
  0 <= v < 256 ^ N -> Z.of_nat (length (DerEncoder.int_content v)) <= N + 1.
Proof.
  intros Hv. assert (HN : 0 <= N).
  { destruct (Z.ltb_spec N 0); [|lia]. rewrite Z.pow_neg_r in Hv by lia. lia. }
  destruct (Z.eq_dec v 0) as [->|Hne]; [simpl; lia|].
  destruct (int_content_pos v ltac:(lia)) as (k & -> & Hk & _ & Hle).
  rewrite length_be_bytes.
  destruct (bit_length_spec v ltac:(lia)) as [HL [Hlo _]].
  rewrite pow256 in Hv by lia.
  assert (bit_length v - 1 < 8 * N).
  { apply (Z.pow_lt_mono_r_iff 2); lia. }
  lia.
Qed.

(** ** Length octets *)

Lemma from_bytes_length_octets (fuel : nat) (n : Z) :
  0 <= n < 2 ^ Z.of_nat fuel ->
  from_bytes (DerEncoder.length_octets fuel n) = n.
Proof.
  revert n. induction fuel as [|f IH]; intros n Hn; simpl.
  - simpl in Hn. unfold from_bytes. simpl. lia.
  - destruct (Z.eqb_spec n 0); [subst; reflexivity|].
    rewrite from_bytes_snoc, byte_val_of_Z, Z.shiftr_div_pow2 by lia.
    rewrite IH.
    + change (Z.land n 255) with (Z.land n (Z.ones 8)).
      rewrite Z.land_ones, Zmod_mod by lia. change (2 ^ 8) with 256.
      pose proof (Z.div_mod n 256 ltac:(lia)). lia.
    + change (2 ^ 8) with 256. split; [apply Z.div_pos; lia|].
      rewrite Nat2Z.inj_succ, Z.pow_succ_r in Hn by lia.
      apply Z.div_lt_upper_bound; lia.
Qed.

Lemma length_length_octets (fuel m : nat) (n : Z) :
  0 <= n < 256 ^ Z.of_nat m ->
  (length (DerEncoder.length_octets fuel n) <= m)%nat.
Proof.
  revert n m. induction fuel as [|f IH]; intros n m Hn; simpl; [lia|].
  destruct (Z.eqb_spec n 0); [simpl; lia|].
  destruct m as [|m]; [simpl in Hn; lia|].
  rewrite length_app. simpl length.
  enough (length (DerEncoder.length_octets f (Z.shiftr n 8)) <= m)%nat by lia.
  apply IH. rewrite Z.shiftr_div_pow2 by lia. change (2 ^ 8) with 256.
  split; [apply Z.div_pos; lia|].
  rewrite Nat2Z.inj_succ, Z.pow_succ_r in Hn by lia.
  apply Z.div_lt_upper_bound; lia.
Qed.

(** pyasn1's limit: 126 length octets, i.e. a length below [256 ^ 126]. *)
Definition der_length_limit : Z := 256 ^ 126.

Lemma encode_length_decode (n : Z) :
  0 <= n < der_length_limit ->
  exists l, DerEncoder.encode_length n = Ok l /\ (length l <= 127)%nat /\
    forall rest, DerDecoder.decode_length (l ++ rest) = Ok (n, rest).
Proof.
  intros Hn. unfold der_length_limit in Hn. unfold DerEncoder.encode_length.
  destruct (Z.ltb_spec n 128).
  - eexists. split; [reflexivity|]. split; [simpl; lia|]. intros rest. simpl.
    rewrite byte_val_of_Z, Z.mod_small by lia.
    destruct (Z.ltb_spec n 128); [reflexivity|lia].
  - destruct (bit_length_spec n ltac:(lia)) as [HL [_ Hhi]].
    set (fuel := Z.to_nat (bit_length n)).
    set (oct := DerEncoder.length_octets fuel n).
    assert (Hlen : (length oct <= 126)%nat)
      by (apply length_length_octets; exact Hn).
    assert (Hval : from_bytes oct = n).
    { apply from_bytes_length_octets. subst fuel. rewrite Z2Nat.id by lia. lia. }
    assert (Hne : (1 <= length oct)%nat).
    { destruct oct as [|b bs] eqn:E; [|simpl; lia].
      unfold from_bytes in Hval. simpl in Hval. lia. }
    destruct (Nat.ltb_spec 126 (length oct)); [lia|].
    eexists. split; [reflexivity|]. split; [simpl; lia|]. intros rest. simpl.
    rewrite byte_val_of_Z, Z.mod_small by lia.
    destruct (Z.ltb_spec (128 + Z.of_nat (length oct)) 128); [lia|].
    destruct (Z.eqb_spec (128 + Z.of_nat (length oct)) 128); [lia|].
    replace (Z.to_nat (128 + Z.of_nat (length oct) - 128)) with (length oct) by lia.
    rewrite length_app.
    destruct (Nat.ltb_spec (length oct + length rest) (length oct)); [lia|].
    rewrite take_app_length, drop_app_length, Hval. reflexivity.
Qed.

Lemma encode_length_err (n : Z) (e : PyError) :
  DerEncoder.encode_length n = Err e -> e = PyAsn1Error.
Proof.
  unfold DerEncoder.encode_length.
  destruct (n <? 128); [discriminate|].
  destruct (126 <? _)%nat; congruence.
Qed.

(** ** TLVs *)

Lemma tlv_decode (tag : byte) (c : bytes) :
  Z.of_nat (length c) < der_length_limit ->
  exists e, DerEncoder.tlv tag c = Ok e /\ (length e <= length c + 128)%nat /\
    forall rest, DerDecoder.decode_tlv tag (e ++ rest) = Ok (c, rest).
Proof.
  intros Hc. unfold DerEncoder.tlv.
  destruct (encode_length_decode (Z.of_nat (length c)) ltac:(lia))
    as (l & -> & Hl & Hdec).
  simpl. eexists. split; [reflexivity|]. split.
  { simpl. rewrite length_app. lia. }
  intros rest. simpl.
  replace (Byte.eqb tag tag) with true by (symmetry; apply Byte.byte_dec_lb; reflexivity). simpl.
  rewrite <- app_assoc, Hdec. simpl. rewrite Nat2Z.id, length_app.
  destruct (Nat.ltb_spec (length c + length rest) (length c)); [lia|].
  rewrite take_app_length, drop_app_length. reflexivity.
Qed.

Lemma tlv_err (tag : byte) (c : bytes) (e : PyError) :
  DerEncoder.tlv tag c = Err e -> e = PyAsn1Error.
Proof.
  unfold DerEncoder.tlv, bind.
  destruct (DerEncoder.encode_length _) eqn:E; [discriminate|].
  intros [= <-]. eapply encode_length_err; eauto.
Qed.

(** ** INTEGERs and SEQUENCEs of INTEGERs *)

Lemma encode_integer_decode (v : Z) :
  0 <= v -> Z.of_nat (length (DerEncoder.int_content v)) < der_length_limit ->
  exists e, DerEncoder.encode_integer v = Ok e /\
    (length e <= length (DerEncoder.int_content v) + 128)%nat /\
    forall rest, DerDecoder.decode_integer (e ++ rest) = Ok (v, rest).
Proof.
  intros Hv Hc. unfold DerEncoder.encode_integer.
  destruct (tlv_decode Byte.x02 _ Hc) as (e & -> & Hl & Hdec).
  exists e. split; [reflexivity|]. split; [exact Hl|].
  intros rest. unfold DerDecoder.decode_integer. rewrite Hdec. simpl.
  rewrite from_bytes_signed_int_content by exact Hv. reflexivity.
Qed.

Lemma encode_components_decode (B : Z) (vs : list Z) :
  B < der_length_limit ->
  Forall (fun v => 0 <= v /\ Z.of_nat (length (DerEncoder.int_content v)) <= B) vs ->
  exists e, DerEncoder.encode_components vs = Ok e /\
    Z.of_nat (length e) <= Z.of_nat (length vs) * (B + 128) /\
    DerDecoder.decode_components (length vs) e = Ok vs.
Proof.
  intros HB Hvs. induction Hvs as [|v vs [Hv Hlv] Hvs IH].
  - exists []. simpl. split; [reflexivity|]. split; [lia|reflexivity].
  - destruct IH as (es & Hes & Hles & Hdes).
    destruct (encode_integer_decode v Hv ltac:(lia)) as (e & He & Hle & Hde).
    exists (e ++ es). simpl. rewrite He, Hes. simpl. split; [reflexivity|].
    split; [rewrite length_app; lia|].
    rewrite Hde. simpl. rewrite Hdes. reflexivity.
Qed.

Lemma encode_sequence_decode (B : Z) (vs : list Z) :
  Z.of_nat (length vs) * (B + 128) < der_length_limit -> B < der_length_limit ->
  Forall (fun v => 0 <= v /\ Z.of_nat (length (DerEncoder.int_content v)) <= B) vs ->
  exists e, DerEncoder.encode_sequence vs = Ok e /\
    forall rest, DerDecoder.decode_sequence (length vs) (e ++ rest) = Ok (vs, rest).
Proof.
  intros Htot HB Hvs.
  destruct (encode_components_decode B vs HB Hvs) as (c & Hc & Hlc & Hdc).
  destruct (tlv_decode Byte.x30 c ltac:(lia)) as (e & He & _ & Hde).
  exists e. unfold DerEncoder.encode_sequence. rewrite Hc. simpl.
  split; [exact He|]. intros rest.
  unfold DerDecoder.decode_sequence. rewrite Hde. simpl. rewrite Hdc. reflexivity.
Qed.

Lemma encode_components_err (vs : list Z) (e : PyError) :
  DerEncoder.encode_components vs = Err e -> e = PyAsn1Error.
Proof.
  revert e. induction vs as [|v vs IH]; intros e; simpl; [discriminate|].
  unfold bind at 1. destruct (DerEncoder.encode_integer v) eqn:E.
  - unfold bind. destruct (DerEncoder.encode_components vs); [discriminate|].
    intros [= <-]. apply IH. reflexivity.
  - intros [= <-]. eapply tlv_err. exact E.
Qed.

Lemma encode_sequence_err (vs : list Z) (e : PyError) :
  DerEncoder.encode_sequence vs = Err e -> e = PyAsn1Error.
Proof.
  unfold DerEncoder.encode_sequence, bind.
  destruct (DerEncoder.encode_components vs) eqn:E.
  - apply tlv_err.
  - intros [= <-]. eapply encode_components_err. exact E.
Qed.

(** ** The decoder leaves trailing data in the remainder *)

Ltac ok_inj :=
  let H := fresh in
  intros H; first [discriminate H | injection H as <- <-; reflexivity].

Lemma decode_length_app (s t rest : bytes) (n : Z) :
  DerDecoder.decode_length s = Ok (n, rest) ->
  DerDecoder.decode_length (s ++ t) = Ok (n, rest ++ t).
Proof.
  destruct s as [|b s]; simpl; [discriminate|].
  destruct (byte_val b <? 128); [congruence|].
  destruct (byte_val b =? 128); [discriminate|].
  rewrite length_app.
  destruct (Nat.ltb_spec (length s) (Z.to_nat (byte_val b - 128))); [discriminate|].
  destruct (Nat.ltb_spec (length s + length t) (Z.to_nat (byte_val b - 128))); [lia|].
  intros [= <- <-]. rewrite take_app_le, drop_app_le by lia. reflexivity.
Qed.

Lemma decode_tlv_app (tag : byte) (s t c rest : bytes) :
  DerDecoder.decode_tlv tag s = Ok (c, rest) ->
  DerDecoder.decode_tlv tag (s ++ t) = Ok (c, rest ++ t).
Proof.
  destruct s as [|b s]; simpl; [discriminate|].
  destruct (negb (Byte.eqb b tag)); [discriminate|].
  unfold bind. destruct (DerDecoder.decode_length s) as [[len r0]|] eqn:E;
    [|discriminate].
  rewrite (decode_length_app _ _ _ _ E). rewrite length_app.
  destruct (Nat.ltb_spec (length r0) (Z.to_nat len)); [discriminate|].
  destruct (Nat.ltb_spec (length r0 + length t) (Z.to_nat len)); [lia|].
  intros [= <- <-]. rewrite take_app_le, drop_app_le by lia. reflexivity.
Qed.

Lemma decode_integer_app (s t rest : bytes) (v : Z) :
  DerDecoder.decode_integer s = Ok (v, rest) ->
  DerDecoder.decode_integer (s ++ t) = Ok (v, rest ++ t).
Proof.
  unfold DerDecoder.decode_integer, bind.
  destruct (DerDecoder.decode_tlv Byte.x02 s) as [[c r0]|] eqn:E; [|discriminate].
  rewrite (decode_tlv_app _ _ _ _ _ E). simpl. ok_inj.
Qed.

Lemma decode_sequence_app (k : nat) (s t rest : bytes) (vs : list Z) :
  DerDecoder.decode_sequence k s = Ok (vs, rest) ->
  DerDecoder.decode_sequence k (s ++ t) = Ok (vs, rest ++ t).
Proof.
  unfold DerDecoder.decode_sequence, bind.
  destruct (DerDecoder.decode_tlv Byte.x30 s) as [[c r0]|] eqn:E; [|discriminate].
  rewrite (decode_tlv_app _ _ _ _ _ E).
  simpl. destruct (DerDecoder.decode_components k c); simpl; ok_inj.
Qed.

Lemma decode_Dss_Parms_app (s t rest : bytes) (x : Dss_Parms) :
  decode_Dss_Parms s = Ok (x, rest) -> decode_Dss_Parms (s ++ t) = Ok (x, rest ++ t).
Proof.
  unfold decode_Dss_Parms, bind.
  destruct (DerDecoder.decode_sequence 3 s) as [[vs r0]|] eqn:E; [|discriminate].
  rewrite (decode_sequence_app _ _ _ _ _ E).
  simpl. destruct vs as [|a [|b [|c [|]]]]; simpl; ok_inj.
Qed.

Lemma decode_Dss_Sig_Value_app (s t rest : bytes) (x : Dss_Sig_Value) :
  decode_Dss_Sig_Value s = Ok (x, rest) ->
  decode_Dss_Sig_Value (s ++ t) = Ok (x, rest ++ t).
Proof.
  unfold decode_Dss_Sig_Value, bind.
  destruct (DerDecoder.decode_sequence 2 s) as [[vs r0]|] eqn:E; [|discriminate].
  rewrite (decode_sequence_app _ _ _ _ _ E).
  simpl. destruct vs as [|a [|b [|]]]; simpl; ok_inj.
Qed.

(** ** The RFC 3279 schemas round-trip through pyasn1 *)

Lemma der_length_limit_eq : der_length_limit = 256 * 256 ^ 125.
Proof. reflexivity. Qed.

Lemma encode_Dss_Sig_Value_decode (x : Dss_Sig_Value) (B : Z) :
  0 <= r x -> 0 <= s x ->
  Z.of_nat (length (DerEncoder.int_content (r x))) <= B ->
  Z.of_nat (length (DerEncoder.int_content (s x))) <= B ->
  2 * (B + 128) < der_length_limit ->
  exists e, encode_Dss_Sig_Value x = Ok e /\
    forall rest, decode_Dss_Sig_Value (e ++ rest) = Ok (x, rest).
Proof.
  intros Hr Hs Hlr Hls HB.
  destruct (encode_sequence_decode B [r x; s x]) as (e & He & Hd);
    [simpl; lia | lia | repeat constructor; lia |].
  exists e. split; [exact He|]. intros rest.
  unfold decode_Dss_Sig_Value. specialize (Hd rest). simpl length in Hd. rewrite Hd. simpl.
  destruct x. reflexivity.
Qed.

Lemma encode_Dss_Parms_decode (x : Dss_Parms) (B : Z) :
  0 <= p x -> 0 <= q x -> 0 <= g x ->
  Z.of_nat (length (DerEncoder.int_content (p x))) <= B ->
  Z.of_nat (length (DerEncoder.int_content (q x))) <= B ->
  Z.of_nat (length (DerEncoder.int_content (g x))) <= B ->
  3 * (B + 128) < der_length_limit ->
  exists e, encode_Dss_Parms x = Ok e /\
    forall rest, decode_Dss_Parms (e ++ rest) = Ok (x, rest).
Proof.
  intros Hp Hq Hg Hlp Hlq Hlg HB.
  destruct (encode_sequence_decode B [p x; q x; g x]) as (e & He & Hd);
    [simpl; lia | lia | repeat constructor; lia |].
  exists e. split; [exact He|]. intros rest.
  unfold decode_Dss_Parms. specialize (Hd rest). simpl length in Hd. rewrite Hd. simpl.
  destruct x. reflexivity.
Qed.

Lemma pow256_20 : 256 ^ Z.of_nat 20 = 2 ^ 160.
Proof. reflexivity. Qed.

Lemma decode_dsa_signature_unfold (der rest : bytes) (x : Dss_Sig_Value) :
  decode_Dss_Sig_Value der = Ok (x, rest) ->
  decode_dsa_signature der =
    bind (to_bytes (r x) 20) (fun rb => bind (to_bytes (s x) 20) (fun sb => Ok (rb ++ sb))).
Proof. intros H. unfold decode_dsa_signature. rewrite H. reflexivity. Qed.

(** ** Claims about the signature codec *)

(** C1: for every 40-byte signature [sig] the two halves are below
    [2 ^ 160] and [decode_dsa_signature (encode_dsa_signature sig) = sig]. *)
Theorem signature_roundtrip (sig : bytes) :
  length sig = 40%nat ->
  from_bytes (take 20 sig) < 2 ^ 160 /\ from_bytes (drop 20 sig) < 2 ^ 160 /\
  bind (encode_dsa_signature sig) decode_dsa_signature = Ok sig.
Proof.
  intros Hlen.
  assert (Hr : length (take 20 sig) = 20%nat) by (rewrite length_take; lia).
  assert (Hs : length (drop 20 sig) = 20%nat) by (rewrite length_drop; lia).
  pose proof (from_bytes_bound (take 20 sig)) as Br.
  pose proof (from_bytes_bound (drop 20 sig)) as Bs.
  rewrite Hr, pow256_20 in Br. rewrite Hs, pow256_20 in Bs.
  split; [lia|]. split; [lia|].
  unfold encode_dsa_signature. rewrite Hlen. simpl (40 / 2)%nat.
  set (x := mkDss_Sig_Value (from_bytes (take 20 sig)) (from_bytes (drop 20 sig))).
  destruct (encode_Dss_Sig_Value_decode x 21) as (e & He & Hd);
    [simpl; lia | simpl; lia | | | rewrite der_length_limit_eq; lia |].
  { pose proof (length_int_content (r x) 20) as H. rewrite pow256 in H by lia.
    simpl in *. lia. }
  { pose proof (length_int_content (s x) 20) as H. rewrite pow256 in H by lia.
    simpl in *. lia. }
  rewrite He. simpl.
  rewrite (decode_dsa_signature_unfold e [] x) by (rewrite <- (app_nil_r e); apply Hd).
  subst x. cbn [r s]. rewrite !to_bytes_ok by (rewrite pow256_20; lia).
  unfold bind. rewrite !be_bytes_from_bytes' by assumption.
  rewrite take_drop. reflexivity.
Qed.

Lemma signature_roundtrip_witness :
  length (zeros 40) = 40%nat /\
  bind (encode_dsa_signature (zeros 40)) decode_dsa_signature = Ok (zeros 40).
Proof.
  split; [reflexivity|].
  apply (signature_roundtrip (zeros 40)). reflexivity.
Defined.

Lemma to_bytes_Ok (n : Z) (k : nat) (b : bytes) :
  to_bytes n k = Ok b -> 0 <= n < 256 ^ Z.of_nat k /\ b = be_bytes k n.
Proof.
  unfold to_bytes.
  destruct (Z.ltb_spec n 0); [discriminate|].
  destruct (Z.leb_spec (256 ^ Z.of_nat k) n); [discriminate|].
  intros [= <-]. split; [lia | reflexivity].
Qed.

Lemma to_bytes_Err (n : Z) (k : nat) (e : PyError) :
  to_bytes n k = Err e -> e = OverflowError.
Proof.
  unfold to_bytes.
  destruct (n <? 0); [congruence|]. destruct (_ <=? n); congruence.
Qed.

(** C2 (as stated): an odd-length buffer such as 39 bytes is encoded, it
    does not fail with INVALID_INPUT. *)
Lemma encode_dsa_signature_odd_counterexample :
  ~ (forall sig : bytes, Nat.odd (length sig) = true ->
       encode_dsa_signature sig = Err ValueError).
Proof.
  intros H. specialize (H (zeros 39) eq_refl).
  vm_compute in H. discriminate H.
Qed.

(** C2 (amended): on an odd-length buffer (within pyasn1's DER length
    limit) [encode_dsa_signature] does not fail: it splits at
    [len // 2], so [s] gets one byte more than [r], and returns the DER
    [Dss-Sig-Value] of the two halves read as big-endian integers. *)
Theorem encode_dsa_signature_odd (sig : bytes) :
  Nat.odd (length sig) = true -> Z.of_nat (length sig) < 256 ^ 125 ->
  let h := (length sig / 2)%nat in
  length (drop h sig) = S (length (take h sig)) /\
  exists der, encode_dsa_signature sig = Ok der /\
    decode_Dss_Sig_Value der =
      Ok (mkDss_Sig_Value (from_bytes (take h sig)) (from_bytes (drop h sig)), []).
Proof.
  intros Hodd Hbig h.
  apply Nat.odd_spec in Hodd. destruct Hodd as [m Hm].
  assert (Hh : h = m).
  { subst h. rewrite Hm. replace (2 * m + 1)%nat with (1 + m * 2)%nat by lia.
    rewrite Nat.div_add by lia. reflexivity. }
  assert (Lr : length (take h sig) = m) by (rewrite length_take; lia).
  assert (Ls : length (drop h sig) = S m) by (rewrite length_drop; lia).
  split; [lia|].
  set (x := mkDss_Sig_Value (from_bytes (take h sig)) (from_bytes (drop h sig))).
  pose proof (from_bytes_bound (take h sig)) as Br.
  pose proof (from_bytes_bound (drop h sig)) as Bs.
  rewrite Lr in Br. rewrite Ls in Bs.
  pose proof (length_int_content (r x) (Z.of_nat m) Br) as Ir.
  pose proof (length_int_content (s x) (Z.of_nat (S m)) Bs) as Is.
  destruct (encode_Dss_Sig_Value_decode x (Z.of_nat m + 2)) as (e & He & Hd);
    [simpl; lia | simpl; lia | lia | lia | rewrite der_length_limit_eq; lia |].
  exists e. split; [exact He|].
  rewrite <- (app_nil_r e). apply Hd.
Qed.

Lemma encode_dsa_signature_odd_witness :
  Nat.odd (length (zeros 39)) = true /\ Z.of_nat (length (zeros 39)) < 256 ^ 125 /\
  length (drop 19 (zeros 39)) = S (length (take 19 (zeros 39))) /\
  exists der, encode_dsa_signature (zeros 39) = Ok der /\
    decode_Dss_Sig_Value der =
      Ok (mkDss_Sig_Value (from_bytes (take 19 (zeros 39)))
                          (from_bytes (drop 19 (zeros 39))), []).
Proof.
  split; [reflexivity|]. split; [vm_compute; reflexivity|].
  exact (encode_dsa_signature_odd (zeros 39) eq_refl ltac:(vm_compute; reflexivity)).
Defined.

(** C3: on a DER [Dss-Sig-Value] whose [r] or [s] is at least [2 ^ 160],
    [decode_dsa_signature] fails with OVERFLOW; when both lie in
    [0, 2 ^ 160) it returns 40 bytes, [r] then [s], each as exactly 20
    big-endian bytes. *)
Theorem decode_dsa_signature_fixed_width (der rest : bytes) (x : Dss_Sig_Value) :
  decode_Dss_Sig_Value der = Ok (x, rest) ->
  ((2 ^ 160 <= r x \/ 2 ^ 160 <= s x) -> decode_dsa_signature der = Err OverflowError) /\
  (0 <= r x < 2 ^ 160 -> 0 <= s x < 2 ^ 160 ->
   exists rb sb, decode_dsa_signature der = Ok (rb ++ sb) /\
     length rb = 20%nat /\ length sb = 20%nat /\
     from_bytes rb = r x /\ from_bytes sb = s x).
Proof.
  intros H. rewrite (decode_dsa_signature_unfold der rest x H). split.
  - intros Hbig.
    destruct (to_bytes (r x) 20) as [rb|er] eqn:Er; simpl.
    + apply to_bytes_Ok in Er. rewrite pow256_20 in Er.
      rewrite to_bytes_overflow by (rewrite pow256_20; lia). reflexivity.
    + apply to_bytes_Err in Er. subst. reflexivity.
  - intros Hr Hs.
    rewrite !to_bytes_ok by (rewrite pow256_20; lia). simpl.
    exists (be_bytes 20 (r x)), (be_bytes 20 (s x)).
    rewrite !length_be_bytes, !from_bytes_be_bytes, pow256_20, !Z.mod_small by lia.
    repeat split.
Qed.

Lemma decode_dsa_signature_fixed_width_witness :
  decode_Dss_Sig_Value [x30; x06; x02; x01; x01; x02; x01; x01] =
    Ok (mkDss_Sig_Value 1 1, []) /\
  exists rb sb,
    decode_dsa_signature [x30; x06; x02; x01; x01; x02; x01; x01] = Ok (rb ++ sb) /\
    length rb = 20%nat /\ length sb = 20%nat /\ from_bytes rb = 1 /\ from_bytes sb = 1.
Proof.
  split; [reflexivity|].
  apply (proj2 (decode_dsa_signature_fixed_width
                  [x30; x06; x02; x01; x01; x02; x01; x01] [] (mkDss_Sig_Value 1 1)
                  eq_refl)); simpl; lia.
Defined.

(** C7: [decode_dsa_signature] on the DER encoding of
    [Dss-Sig-Value{r=1, s=1}] is 19 zero bytes and 0x01, twice. *)
Theorem decode_dsa_signature_r1_s1 :
  encode_Dss_Sig_Value (mkDss_Sig_Value 1 1) =
    Ok [x30; x06; x02; x01; x01; x02; x01; x01] /\
  decode_dsa_signature [x30; x06; x02; x01; x01; x02; x01; x01] =
    Ok (zeros 19 ++ [x01] ++ zeros 19 ++ [x01]).
Proof. split; reflexivity. Qed.

(** C10: a DER [Dss-Sig-Value] with a negative [r] or [s] makes
    [decode_dsa_signature] fail (OVERFLOW from the unsigned [to_bytes]);
    every successful result is the 20-byte encodings of two integers in
    [0, 2 ^ 160) read from the input. *)
Theorem decode_dsa_signature_negative :
  (forall (der rest : bytes) (x : Dss_Sig_Value),
     decode_Dss_Sig_Value der = Ok (x, rest) -> (r x < 0 \/ s x < 0) ->
     decode_dsa_signature der = Err OverflowError) /\
  (forall der out : bytes,
     decode_dsa_signature der = Ok out ->
     exists x rest, decode_Dss_Sig_Value der = Ok (x, rest) /\
       0 <= r x < 2 ^ 160 /\ 0 <= s x < 2 ^ 160 /\
       out = be_bytes 20 (r x) ++ be_bytes 20 (s x)).
Proof.
  split.
  - intros der rest x H Hneg. rewrite (decode_dsa_signature_unfold der rest x H).
    destruct (to_bytes (r x) 20) as [rb|er] eqn:Er; simpl.
    + apply to_bytes_Ok in Er.
      rewrite to_bytes_overflow by lia. reflexivity.
    + apply to_bytes_Err in Er. subst. reflexivity.
  - intros der out. unfold decode_dsa_signature, bind.
    destruct (decode_Dss_Sig_Value der) as [[x rest]|e]; [|discriminate].
    destruct (to_bytes (r x) 20) as [rb|er] eqn:Er; [|discriminate].
    destruct (to_bytes (s x) 20) as [sb|es] eqn:Es; [|discriminate].
    intros [= <-]. apply to_bytes_Ok in Er, Es. rewrite pow256_20 in Er, Es.
    exists x, rest. destruct Er as [? ->], Es as [? ->]. auto.
Qed.

Lemma decode_dsa_signature_negative_witness :
  decode_dsa_signature [x30; x06; x02; x01; xff; x02; x01; x01] = Err OverflowError.
Proof.
  apply (proj1 decode_dsa_signature_negative
           [x30; x06; x02; x01; xff; x02; x01; x01] [] (mkDss_Sig_Value (-1) 1)).
  - reflexivity.
  - left. simpl. lia.
Defined.

(** ** The integer codec of the package *)

Lemma biginteger_ok (v : Z) :
  0 <= v -> exists b, biginteger v = Ok b /\ from_bytes b = v.
Proof.
  intros Hv. unfold biginteger.
  destruct (Z.ltb_spec v 0); [lia|].
  destruct (Z.eqb_spec v 0) as [->|Hne]; [eexists; split; reflexivity|].
  destruct (bit_length_spec v ltac:(lia)) as [HL [_ Hhi]].
  set (k := Z.to_nat ((bit_length v + 7) / 8)).
  assert (Hk : v < 256 ^ Z.of_nat k).
  { subst k. rewrite Z2Nat.id by (apply Z.div_pos; lia). rewrite pow256 by (apply Z.div_pos; lia).
    eapply Z.lt_le_trans; [exact Hhi|]. apply Z.pow_le_mono_r; [lia|].
    pose proof (Z.div_mod (bit_length v + 7) 8 ltac:(lia)).
    pose proof (Z.mod_pos_bound (bit_length v + 7) 8 ltac:(lia)). lia. }
  rewrite to_bytes_ok by lia. eexists. split; [reflexivity|].
  rewrite from_bytes_be_bytes, Z.mod_small by lia. reflexivity.
Qed.

Lemma byte_val_zero (b : byte) : byte_val b = 0 -> b = Byte.x00.
Proof. intros H. rewrite <- (byte_of_Z_val b), H. reflexivity. Qed.

Lemma biginteger_minimal (bs : bytes) :
  minimal_be bs = true -> biginteger (from_bytes bs) = Ok bs.
Proof.
  intros Hmin.
  destruct bs as [|b rest]; [discriminate|].
  assert (Hsingle : rest = [] -> byte_val b = 0 -> biginteger (from_bytes (b :: rest)) = Ok (b :: rest)).
  { intros -> Hz. rewrite (byte_val_zero b Hz). reflexivity. }
  destruct (decide (rest = [] /\ byte_val b = 0)) as [[H1 H2]|Hnz]; [auto|].
  assert (Hb : 1 <= byte_val b).
  { pose proof (byte_val_bound b).
    destruct rest as [|c rest'].
    { destruct (Z.eq_dec (byte_val b) 0); [exfalso; apply Hnz; auto | lia]. }
    simpl in Hmin. destruct (Z.eq_dec (byte_val b) 0) as [Hz|]; [|lia].
    rewrite (byte_val_zero b Hz) in Hmin. discriminate. }
  pose proof (from_bytes_bound rest) as Brest.
  pose proof (from_bytes_bound (b :: rest)) as Ball.
  pose proof (from_bytes_cons b rest) as Hcons.
  simpl length in Ball. rewrite Nat2Z.inj_succ in Ball.
  remember (length rest) as n eqn:Hn.
  remember (from_bytes (b :: rest)) as v eqn:Hv.
  assert (Hlo : 256 ^ Z.of_nat n <= v) by nia.
  destruct (bit_length_spec v ltac:(lia)) as [HL [Hl Hh]].
  rewrite pow256 in Hlo, Ball by lia.
  assert (HL1 : bit_length v <= 8 * Z.succ (Z.of_nat n)).
  { destruct (Z.leb_spec (bit_length v) (8 * Z.succ (Z.of_nat n))); [lia|].
    assert (2 ^ (8 * Z.succ (Z.of_nat n)) <= 2 ^ (bit_length v - 1))
      by (apply Z.pow_le_mono_r; lia). lia. }
  assert (HL2 : 8 * Z.of_nat n < bit_length v).
  { destruct (Z.ltb_spec (8 * Z.of_nat n) (bit_length v)); [lia|].
    assert (2 ^ bit_length v <= 2 ^ (8 * Z.of_nat n))
      by (apply Z.pow_le_mono_r; lia). lia. }
  assert (Hk : Z.to_nat ((bit_length v + 7) / 8) = S n).
  { assert ((bit_length v + 7) / 8 = Z.of_nat n + 1); [|lia].
    symmetry. apply Z.div_unique with (r := (bit_length v + 7) - 8 * (Z.of_nat n + 1)); lia. }
  unfold biginteger.
  destruct (Z.ltb_spec v 0); [lia|]. destruct (Z.eqb_spec v 0); [lia|].
  rewrite Hk, to_bytes_ok.
  - f_equal. subst v.
    apply be_bytes_from_bytes'. simpl. congruence.
  - rewrite Nat2Z.inj_succ, pow256 by lia. lia.
Qed.

(** ** Claims about the public key and the attribute maps *)

(** C5: for every non-negative [v] expressible in [N] bytes ([N] within
    pyasn1's DER length limit), with [encode v] the minimal big-endian
    buffer of [v], [decode_dsa_public_key (encode_dsa_public_key
    {VALUE: encode v}) = encode v]. *)
Theorem public_key_roundtrip (N v : Z) :
  0 <= v < 256 ^ N -> N + 1 < der_length_limit ->
  exists b, biginteger v = Ok b /\
    bind (encode_dsa_public_key {[VALUE := b]}) decode_dsa_public_key = Ok b.
Proof.
  intros Hv HN.
  destruct (biginteger_ok v ltac:(lia)) as (b & Hb & Hfb).
  exists b. split; [exact Hb|].
  pose proof (length_int_content v N Hv) as Hl.
  destruct (encode_integer_decode v ltac:(lia) ltac:(lia)) as (e & He & _ & Hd).
  unfold encode_dsa_public_key, getitem. rewrite lookup_singleton_eq. simpl.
  unfold encode_DSAPublicKey. rewrite Hfb, He. simpl.
  unfold decode_dsa_public_key, decode_DSAPublicKey.
  rewrite <- (app_nil_r e), Hd. simpl. exact Hb.
Qed.

Lemma public_key_roundtrip_witness :
  exists b, biginteger 0 = Ok b /\
    bind (encode_dsa_public_key {[VALUE := b]}) decode_dsa_public_key = Ok b.
Proof.
  apply (public_key_roundtrip 1 0); [lia | vm_compute; reflexivity].
Defined.

(** C6: [encode_dsa_domain_parameters] fails with MISSING_ATTRIBUTE exactly
    when one of BASE, PRIME, SUBPRIME is absent, and
    [encode_dsa_public_key] exactly when VALUE is absent. *)
Theorem encode_missing_attribute (M : attrs) :
  (encode_dsa_domain_parameters M = Err KeyError <->
     M !! BASE = None \/ M !! PRIME = None \/ M !! SUBPRIME = None) /\
  (encode_dsa_public_key M = Err KeyError <-> M !! VALUE = None).
Proof.
  split.
  - unfold encode_dsa_domain_parameters, getitem.
    destruct (M !! BASE) as [bg|]; simpl; [|intuition congruence].
    destruct (M !! PRIME) as [bp|]; simpl; [|intuition congruence].
    destruct (M !! SUBPRIME) as [bq|]; simpl; [|intuition congruence].
    split; [|intuition congruence].
    intros H. unfold encode_Dss_Parms in H.
    apply encode_sequence_err in H. discriminate.
  - unfold encode_dsa_public_key, getitem.
    destruct (M !! VALUE) as [b|]; simpl; [|intuition congruence].
    split; [|discriminate].
    intros H. unfold encode_DSAPublicKey, DerEncoder.encode_integer in H.
    apply tlv_err in H. discriminate.
Qed.

(** C8: a VALUE buffer denoting 0 is encoded as the DER INTEGER
    [0x02 0x01 0x00]; the empty buffer denotes 0, for VALUE as for the
    domain parameters. *)
Theorem encode_zero_value :
  (forall (M : attrs) (b : bytes), M !! VALUE = Some b -> from_bytes b = 0 ->
     encode_dsa_public_key M = Ok [x02; x01; x00]) /\
  from_bytes [] = 0 /\
  (forall M : attrs, encode_dsa_public_key (<[VALUE := []]> M) = Ok [x02; x01; x00]) /\
  (forall (M : attrs) (k : Attribute),
     encode_dsa_domain_parameters (<[k := []]> M) =
     encode_dsa_domain_parameters (<[k := [x00]]> M)).
Proof.
  assert (Hpk : forall (M : attrs) (b : bytes), M !! VALUE = Some b -> from_bytes b = 0 ->
            encode_dsa_public_key M = Ok [x02; x01; x00]).
  { intros M b Hb Hz. unfold encode_dsa_public_key, getitem. rewrite Hb. simpl.
    rewrite Hz. reflexivity. }
  split; [exact Hpk|]. split; [reflexivity|]. split.
  - intros M. apply (Hpk _ []); [apply lookup_insert_eq | reflexivity].
  - intros M k. unfold encode_dsa_domain_parameters, getitem.
    destruct k; rewrite ?lookup_insert_eq, ?lookup_insert_ne by done; reflexivity.
Qed.

Lemma encode_zero_value_witness :
  encode_dsa_public_key {[VALUE := [x00; x00]]} = Ok [x02; x01; x00].
Proof.
  apply (proj1 encode_zero_value _ [x00; x00]).
  - apply lookup_singleton_eq.
  - reflexivity.
Defined.

(** C9: the three decoders discard the remainder left by the DER decoder:
    whenever [d] parses as the expected structure, decoding [d ++ t] gives
    the same outcome as decoding [d], whatever the trailing bytes [t]. *)
Theorem decoders_ignore_trailing_data (d t : bytes) :
  ((exists x rest, decode_Dss_Parms d = Ok (x, rest)) ->
     decode_dsa_domain_parameters (d ++ t) = decode_dsa_domain_parameters d) /\
  ((exists y rest, decode_DSAPublicKey d = Ok (y, rest)) ->
     decode_dsa_public_key (d ++ t) = decode_dsa_public_key d) /\
  ((exists x rest, decode_Dss_Sig_Value d = Ok (x, rest)) ->
     decode_dsa_signature (d ++ t) = decode_dsa_signature d).
Proof.
  split; [|split].
  - intros (x & rest & H). unfold decode_dsa_domain_parameters.
    rewrite (decode_Dss_Parms_app _ _ _ _ H), H. reflexivity.
  - intros (y & rest & H). unfold decode_dsa_public_key, decode_DSAPublicKey in *.
    rewrite (decode_integer_app _ _ _ _ H), H. reflexivity.
  - intros (x & rest & H). unfold decode_dsa_signature.
    rewrite (decode_Dss_Sig_Value_app _ _ _ _ H), H. reflexivity.
Qed.

Lemma decoders_ignore_trailing_data_witness :
  decode_dsa_signature ([x30; x06; x02; x01; x01; x02; x01; x01] ++ [xde; xad]) =
  decode_dsa_signature [x30; x06; x02; x01; x01; x02; x01; x01] /\
  decode_dsa_public_key ([x02; x01; x05] ++ [x00]) = decode_dsa_public_key [x02; x01; x05] /\
  decode_dsa_domain_parameters
    ([x30; x09; x02; x01; x07; x02; x01; x03; x02; x01; x02] ++ [xff]) =
  decode_dsa_domain_parameters [x30; x09; x02; x01; x07; x02; x01; x03; x02; x01; x02].
Proof.
  split; [|split].
  - apply (decoders_ignore_trailing_data _ _). exists (mkDss_Sig_Value 1 1), [].
    reflexivity.
  - apply (decoders_ignore_trailing_data _ _). exists 5, []. reflexivity.
  - apply (decoders_ignore_trailing_data _ _). exists (mkDss_Parms 7 3 2), [].
    reflexivity.
Defined.

(** C4 (as stated): a map holding, besides minimal BASE, PRIME and
    SUBPRIME buffers, a VALUE entry does not come back from
    [decode_dsa_domain_parameters (encode_dsa_domain_parameters M)]. *)
Lemma domain_parameters_roundtrip_counterexample :
  ~ (forall (M : attrs) (bg bp bq : bytes),
       M !! BASE = Some bg -> M !! PRIME = Some bp -> M !! SUBPRIME = Some bq ->
       minimal_be bg = true -> minimal_be bp = true -> minimal_be bq = true ->
       bind (encode_dsa_domain_parameters M) decode_dsa_domain_parameters = Ok M).
Proof.
  intros H.
  set (M := <[BASE := [x02]]> (<[PRIME := [x07]]> (<[SUBPRIME := [x03]]>
              (<[VALUE := [x01]]> (∅ : attrs))))).
  specialize (H M [x02] [x07] [x03] eq_refl eq_refl eq_refl eq_refl eq_refl eq_refl).
  apply (f_equal (fun res => match res with Ok N => N !! VALUE | Err _ => None end)) in H.
  vm_compute in H. discriminate H.
Qed.

(** C4 (amended): for every map [M] holding BASE, PRIME and SUBPRIME
    (within pyasn1's DER length limit),
    [decode_dsa_domain_parameters (encode_dsa_domain_parameters M)] is the
    map with exactly those three keys, each holding the minimal encoding
    of the integer that [M]'s buffer denotes; when the three buffers are
    minimal it is [M] with its VALUE entry removed, so [M] itself when [M]
    has no other key. *)
Theorem domain_parameters_roundtrip (M : attrs) (bg bp bq : bytes) :
  M !! BASE = Some bg -> M !! PRIME = Some bp -> M !! SUBPRIME = Some bq ->
  Z.of_nat (length bg) < 256 ^ 125 -> Z.of_nat (length bp) < 256 ^ 125 ->
  Z.of_nat (length bq) < 256 ^ 125 ->
  (exists N : attrs,
     bind (encode_dsa_domain_parameters M) decode_dsa_domain_parameters = Ok N /\
     N !! VALUE = None /\
     forall k b, k <> VALUE -> M !! k = Some b ->
       exists b', biginteger (from_bytes b) = Ok b' /\ N !! k = Some b') /\
  (minimal_be bg = true -> minimal_be bp = true -> minimal_be bq = true ->
   bind (encode_dsa_domain_parameters M) decode_dsa_domain_parameters =
     Ok (delete VALUE M)).
Proof.
  intros HBg HBp HBq Lg Lp Lq.
  pose proof (from_bytes_bound bg) as Fg.
  pose proof (from_bytes_bound bp) as Fp.
  pose proof (from_bytes_bound bq) as Fq.
  pose proof (length_int_content _ _ Fg) as Ig.
  pose proof (length_int_content _ _ Fp) as Ip.
  pose proof (length_int_content _ _ Fq) as Iq.
  assert (Hbig : 2 < 256 ^ 125) by (vm_compute; reflexivity).
  set (x := mkDss_Parms (from_bytes bp) (from_bytes bq) (from_bytes bg)).
  destruct (encode_Dss_Parms_decode x (256 ^ 125)) as (e & He & Hd);
    [simpl; lia .. | rewrite der_length_limit_eq; lia |].
  assert (Hround : bind (encode_dsa_domain_parameters M) decode_dsa_domain_parameters =
            decode_dsa_domain_parameters e).
  { unfold encode_dsa_domain_parameters, getitem. rewrite HBg, HBp, HBq. simpl.
    fold x. rewrite He. reflexivity. }
  assert (Hdec : decode_dsa_domain_parameters e =
     bind (biginteger (from_bytes bg)) (fun base =>
     bind (biginteger (from_bytes bp)) (fun prime =>
     bind (biginteger (from_bytes bq)) (fun subprime =>
     Ok (<[BASE := base]> (<[PRIME := prime]> (<[SUBPRIME := subprime]> ∅))))))).
  { unfold decode_dsa_domain_parameters. rewrite <- (app_nil_r e), Hd. reflexivity. }
  rewrite Hround, Hdec.
  destruct (biginteger_ok (from_bytes bg) ltac:(lia)) as (g' & Hg' & _).
  destruct (biginteger_ok (from_bytes bp) ltac:(lia)) as (p' & Hp' & _).
  destruct (biginteger_ok (from_bytes bq) ltac:(lia)) as (q' & Hq' & _).
  split.
  - rewrite Hg', Hp', Hq'. simpl. eexists. split; [reflexivity|]. split.
    + simplify_map_eq. reflexivity.
    + intros k b Hk Hb. destruct k; [| | | congruence].
      * rewrite HBg in Hb. injection Hb as <-. exists g'. split; [exact Hg'|].
        simplify_map_eq. reflexivity.
      * rewrite HBp in Hb. injection Hb as <-. exists p'. split; [exact Hp'|].
        simplify_map_eq. reflexivity.
      * rewrite HBq in Hb. injection Hb as <-. exists q'. split; [exact Hq'|].
        simplify_map_eq. reflexivity.
  - intros Mg Mp Mq.
    rewrite (biginteger_minimal bg Mg), (biginteger_minimal bp Mp),
      (biginteger_minimal bq Mq). simpl. f_equal.
    apply map_eq. intros k. destruct k; simplify_map_eq; congruence.
Qed.

Lemma domain_parameters_roundtrip_witness :
  bind (encode_dsa_domain_parameters
          (<[BASE := [x02]]> (<[PRIME := [x07]]> (<[SUBPRIME := [x03]]> (∅ : attrs)))))
       decode_dsa_domain_parameters =
  Ok (delete VALUE (<[BASE := [x02]]> (<[PRIME := [x07]]> (<[SUBPRIME := [x03]]> (∅ : attrs))))).
Proof.
  refine (proj2 (domain_parameters_roundtrip _ [x02] [x07] [x03] _ _ _ _ _ _)
            eq_refl eq_refl eq_refl); vm_compute; reflexivity.
Defined.

(** * Further properties of pkcs11/util/dsa.py *)

(** ** Every decode error is a pyasn1 error *)

Definition asn1_only {A} (m : result A) : Prop :=
  forall e, m = Err e -> e = PyAsn1Error.

Lemma asn1_only_bind {A B} (m : result A) (f : A -> result B) :
  asn1_only m -> (forall a, asn1_only (f a)) -> asn1_only (bind m f).
Proof.
  intros Hm Hf e. destruct m as [a|e']; simpl; [exact (Hf a e)|].
  intros [= <-]. exact (Hm e' eq_refl).
Qed.

Ltac asn1_only_tac :=
  repeat match goal with
  | |- asn1_only (bind _ _) => apply asn1_only_bind; [|intros []]
  | |- asn1_only (Ok _) => intros ? ?; discriminate
  | |- asn1_only (Err ?e) => intros ? H; injection H as <-; reflexivity
  | |- asn1_only (if ?b then _ else _) => destruct b
  | |- asn1_only (match ?x with _ => _ end) => destruct x
  end.

Lemma decode_length_asn1 (s : bytes) : asn1_only (DerDecoder.decode_length s).
Proof. unfold DerDecoder.decode_length. asn1_only_tac. Qed.

Lemma decode_tlv_asn1 (tag : byte) (s : bytes) : asn1_only (DerDecoder.decode_tlv tag s).
Proof.
  unfold DerDecoder.decode_tlv. destruct s as [|t rest]; [asn1_only_tac|].
  destruct (negb _); [asn1_only_tac|].
  apply asn1_only_bind; [apply decode_length_asn1|]. intros []. asn1_only_tac.
Qed.

Lemma decode_integer_asn1 (s : bytes) : asn1_only (DerDecoder.decode_integer s).
Proof.
  unfold DerDecoder.decode_integer. apply asn1_only_bind; [apply decode_tlv_asn1|].
  intros []. asn1_only_tac.
Qed.

Lemma decode_components_asn1 (k : nat) (c : bytes) :
  asn1_only (DerDecoder.decode_components k c).
Proof.
  revert c. induction k as [|k IH]; intros c; simpl; [asn1_only_tac|].
  apply asn1_only_bind; [apply decode_integer_asn1|]. intros [v c'].
  apply asn1_only_bind; [apply IH|]. intros. asn1_only_tac.
Qed.

Lemma decode_sequence_asn1 (k : nat) (s : bytes) :
  asn1_only (DerDecoder.decode_sequence k s).
Proof.
  unfold DerDecoder.decode_sequence. apply asn1_only_bind; [apply decode_tlv_asn1|].
  intros [c rest]. apply asn1_only_bind; [apply decode_components_asn1|].
  intros. asn1_only_tac.
Qed.

Lemma decode_Dss_Parms_asn1 (s : bytes) : asn1_only (decode_Dss_Parms s).
Proof.
  unfold decode_Dss_Parms. apply asn1_only_bind; [apply decode_sequence_asn1|].
  intros [vs rest]. asn1_only_tac.
Qed.

Lemma decode_Dss_Sig_Value_asn1 (s : bytes) : asn1_only (decode_Dss_Sig_Value s).
Proof.
  unfold decode_Dss_Sig_Value. apply asn1_only_bind; [apply decode_sequence_asn1|].
  intros [vs rest]. asn1_only_tac.
Qed.

(** X1: a strict prefix of a buffer holding exactly one DER structure
    (the empty buffer included) is refused by the matching decoder with a
    pyasn1 error: truncated input never decodes. *)
Theorem decoders_reject_truncated (p t : bytes) :
  t <> [] ->
  ((exists x, decode_Dss_Parms (p ++ t) = Ok (x, [])) ->
     decode_dsa_domain_parameters p = Err PyAsn1Error) /\
  ((exists y, decode_DSAPublicKey (p ++ t) = Ok (y, [])) ->
     decode_dsa_public_key p = Err PyAsn1Error) /\
  ((exists x, decode_Dss_Sig_Value (p ++ t) = Ok (x, [])) ->
     decode_dsa_signature p = Err PyAsn1Error).
Proof.
  intros Ht. split; [|split].
  - intros [x Hx]. unfold decode_dsa_domain_parameters.
    destruct (decode_Dss_Parms p) as [[x' r']|e] eqn:E.
    + apply (decode_Dss_Parms_app _ t) in E. rewrite Hx in E.
      injection E as _ E. destruct r', t; simpl in E; congruence.
    + simpl. f_equal. apply (decode_Dss_Parms_asn1 p e E).
  - intros [y Hy]. unfold decode_dsa_public_key, decode_DSAPublicKey in *.
    destruct (DerDecoder.decode_integer p) as [[y' r']|e] eqn:E.
    + apply (decode_integer_app _ t) in E. rewrite Hy in E.
      injection E as _ E. destruct r', t; simpl in E; congruence.
    + simpl. f_equal. apply (decode_integer_asn1 p e E).
  - intros [x Hx]. unfold decode_dsa_signature.
    destruct (decode_Dss_Sig_Value p) as [[x' r']|e] eqn:E.
    + apply (decode_Dss_Sig_Value_app _ t) in E. rewrite Hx in E.
      injection E as _ E. destruct r', t; simpl in E; congruence.
    + simpl. f_equal. apply (decode_Dss_Sig_Value_asn1 p e E).
Qed.

Lemma decoders_reject_truncated_witness :
  decode_dsa_signature [x30; x06; x02; x01] = Err PyAsn1Error /\
  decode_dsa_domain_parameters [] = Err PyAsn1Error.
Proof.
  split.
  - apply (decoders_reject_truncated [x30; x06; x02; x01] [x01; x02; x01; x01]).
    + discriminate.
    + exists (mkDss_Sig_Value 1 1). reflexivity.
  - apply (decoders_reject_truncated [] [x30; x09; x02; x01; x07; x02; x01; x03; x02; x01; x02]).
    + discriminate.
    + exists (mkDss_Parms 7 3 2). reflexivity.
Defined.

(** ** Signatures of other lengths *)

Lemma be_bytes_split (j m : nat) (v : Z) :
  be_bytes (j + m) v = be_bytes j (v / 256 ^ Z.of_nat m) ++ be_bytes m v.
Proof.
  revert v. induction m as [|m IH]; intros v.
  - rewrite Nat.add_0_r, app_nil_r. simpl. rewrite Z.div_1_r. reflexivity.
  - rewrite Nat.add_succ_r. simpl be_bytes. rewrite IH, app_assoc.
    rewrite Z.div_div by (try apply Z.pow_pos_nonneg; lia).
    rewrite Nat2Z.inj_succ, Z.pow_succ_r by lia. reflexivity.
Qed.

Lemma be_bytes_zero (j : nat) : be_bytes j 0 = zeros j.
Proof.
  induction j as [|j IH]; [reflexivity|].
  simpl be_bytes. rewrite Zdiv_0_l, IH. unfold zeros. simpl repeat.
  rewrite repeat_cons. reflexivity.
Qed.

(** Left padding of [int.to_bytes] on a short buffer. *)
Lemma be_bytes_pad (k : nat) (bs : bytes) :
  (length bs <= k)%nat -> be_bytes k (from_bytes bs) = zeros (k - length bs) ++ bs.
Proof.
  intros Hk. replace k with ((k - length bs) + length bs)%nat at 1 by lia.
  rewrite be_bytes_split, be_bytes_from_bytes.
  pose proof (from_bytes_bound bs).
  rewrite Z.div_small, be_bytes_zero by lia. reflexivity.
Qed.

Lemma encode_dsa_signature_parses (sig : bytes) :
  Z.of_nat (length sig) < 256 ^ 125 ->
  let h := (length sig / 2)%nat in
  exists der, encode_dsa_signature sig = Ok der /\
    decode_Dss_Sig_Value der =
      Ok (mkDss_Sig_Value (from_bytes (take h sig)) (from_bytes (drop h sig)), []).
Proof.
  intros Hbig h.
  set (x := mkDss_Sig_Value (from_bytes (take h sig)) (from_bytes (drop h sig))).
  pose proof (from_bytes_bound (take h sig)) as Br.
  pose proof (from_bytes_bound (drop h sig)) as Bs.
  pose proof (length_int_content (r x) _ Br) as Ir.
  pose proof (length_int_content (s x) _ Bs) as Is.
  rewrite length_take in Ir. rewrite length_drop in Is.
  destruct (encode_Dss_Sig_Value_decode x (Z.of_nat (length sig) + 1)) as (e & He & Hd);
    [simpl; lia | simpl; lia | lia | lia | rewrite der_length_limit_eq; lia |].
  exists e. split; [exact He|].
  rewrite <- (app_nil_r e). apply Hd.
Qed.

(** X2: a signature of [2 * n] bytes with [n <= 20] round-trips through
    [encode_dsa_signature] and [decode_dsa_signature] to its two halves,
    each left-padded with zero bytes to 20 bytes. *)
Theorem signature_roundtrip_short (sig : bytes) (n : nat) :
  length sig = (2 * n)%nat -> (n <= 20)%nat ->
  bind (encode_dsa_signature sig) decode_dsa_signature =
    Ok (zeros (20 - n) ++ take n sig ++ zeros (20 - n) ++ drop n sig).
Proof.
  intros Hlen Hn.
  assert (Hh : (length sig / 2)%nat = n).
  { rewrite Hlen, Nat.mul_comm, Nat.div_mul by lia. reflexivity. }
  destruct (encode_dsa_signature_parses sig) as (e & He & Hd).
  { rewrite Hlen. assert (Z.of_nat (2 * n) <= 40) by lia.
    assert (40 < 256 ^ 125) by (vm_compute; reflexivity). lia. }
  rewrite Hh in Hd. rewrite He. simpl.
  rewrite (decode_dsa_signature_unfold e [] _ Hd). simpl r. simpl s.
  assert (Lr : length (take n sig) = n) by (rewrite length_take; lia).
  assert (Ls : length (drop n sig) = n) by (rewrite length_drop; lia).
  pose proof (from_bytes_bound (take n sig)) as Br.
  pose proof (from_bytes_bound (drop n sig)) as Bs.
  rewrite Lr in Br. rewrite Ls in Bs.
  assert (256 ^ Z.of_nat n <= 256 ^ Z.of_nat 20) by (apply Z.pow_le_mono_r; lia).
  rewrite !to_bytes_ok by lia. unfold bind.
  rewrite !be_bytes_pad by lia. rewrite Lr, Ls, <- !app_assoc. reflexivity.
Qed.

Lemma signature_roundtrip_short_witness :
  bind (encode_dsa_signature [x01; x02; x03; x04]) decode_dsa_signature =
    Ok (zeros 18 ++ [x01; x02] ++ zeros 18 ++ [x03; x04]).
Proof.
  exact (signature_roundtrip_short [x01; x02; x03; x04] 2 eq_refl ltac:(lia)).
Defined.

(** X3: when a half of the signature buffer (split at [len // 2]) denotes
    an integer of [2 ^ 160] or more, as in a 64-byte signature with a
    non-zero leading byte, [decode_dsa_signature] refuses the encoding of
    [encode_dsa_signature] with [OverflowError]. *)
Theorem signature_wide_overflow (sig : bytes) :
  Z.of_nat (length sig) < 256 ^ 125 ->
  (2 ^ 160 <= from_bytes (take (length sig / 2) sig) \/
   2 ^ 160 <= from_bytes (drop (length sig / 2) sig)) ->
  bind (encode_dsa_signature sig) decode_dsa_signature = Err OverflowError.
Proof.
  intros Hbig Hwide.
  destruct (encode_dsa_signature_parses sig Hbig) as (e & He & Hd).
  set (h := (length sig / 2)%nat) in *.
  rewrite He. simpl. rewrite (decode_dsa_signature_unfold e [] _ Hd). simpl r. simpl s.
  destruct (to_bytes (from_bytes (take h sig)) 20) as [rb|er] eqn:Er;
    simpl.
  - apply to_bytes_Ok in Er. rewrite pow256_20 in Er.
    rewrite to_bytes_overflow by (rewrite pow256_20; lia). reflexivity.
  - apply to_bytes_Err in Er. subst. reflexivity.
Qed.

Lemma signature_wide_overflow_witness :
  bind (encode_dsa_signature (x01 :: zeros 63)) decode_dsa_signature = Err OverflowError.
Proof.
  apply signature_wide_overflow; vm_compute; [reflexivity|]. left. discriminate.
Defined.

(** ** What the encoders read from the attribute map *)



(** X5: for a VALUE buffer [b] (within pyasn1's DER length limit),
    [encode_dsa_public_key] emits exactly one DER INTEGER holding
    [int.from_bytes(b)], with nothing after it, and
    [decode_dsa_public_key] turns it back into the minimal encoding of
    that integer: leading zero bytes of [b] are dropped. *)
Theorem public_key_normalizes (M : attrs) (b : bytes) :
  M !! VALUE = Some b -> Z.of_nat (length b) + 1 < der_length_limit ->
  exists der, encode_dsa_public_key M = Ok der /\
    decode_DSAPublicKey der = Ok (from_bytes b, []) /\
    decode_dsa_public_key der = biginteger (from_bytes b).
Proof.
  intros Hb Hlen.
  pose proof (from_bytes_bound b) as Fb.
  pose proof (length_int_content _ _ Fb) as Ib.
  destruct (encode_integer_decode (from_bytes b) ltac:(lia) ltac:(lia))
    as (e & He & _ & Hd).
  exists e. unfold encode_dsa_public_key, getitem. rewrite Hb. simpl.
  unfold encode_DSAPublicKey. rewrite He.
  assert (Hd0 : decode_DSAPublicKey e = Ok (from_bytes b, [])).
  { unfold decode_DSAPublicKey. rewrite <- (app_nil_r e). apply Hd. }
  split; [reflexivity|]. split; [exact Hd0|].
  unfold decode_dsa_public_key. rewrite Hd0. reflexivity.
Qed.

Lemma public_key_normalizes_witness :
  exists der, encode_dsa_public_key {[VALUE := [x00; x00; x80]]} = Ok der /\
    decode_DSAPublicKey der = Ok (128, []) /\
    decode_dsa_public_key der = Ok [x80].
Proof.
  refine (public_key_normalizes {[VALUE := [x00; x00; x80]]} [x00; x00; x80] _ _);
    vm_compute; reflexivity.
Defined.

(** X6: for a map holding BASE, PRIME and SUBPRIME (within pyasn1's DER
    length limit), [encode_dsa_domain_parameters] emits exactly one DER
    [Dss-Parms] whose fields, in wire order, are [p] = PRIME,
    [q] = SUBPRIME and [g] = BASE, each the integer its buffer denotes. *)
Theorem domain_parameters_wire_order (M : attrs) (bg bp bq : bytes) :
  M !! BASE = Some bg -> M !! PRIME = Some bp -> M !! SUBPRIME = Some bq ->
  Z.of_nat (length bg) < 256 ^ 125 -> Z.of_nat (length bp) < 256 ^ 125 ->
  Z.of_nat (length bq) < 256 ^ 125 ->
  exists der, encode_dsa_domain_parameters M = Ok der /\
    decode_Dss_Parms der =
      Ok (mkDss_Parms (from_bytes bp) (from_bytes bq) (from_bytes bg), []).
Proof.
  intros HBg HBp HBq Lg Lp Lq.
  pose proof (from_bytes_bound bg) as Fg.
  pose proof (from_bytes_bound bp) as Fp.
  pose proof (from_bytes_bound bq) as Fq.
  pose proof (length_int_content _ _ Fg) as Ig.
  pose proof (length_int_content _ _ Fp) as Ip.
  pose proof (length_int_content _ _ Fq) as Iq.
  assert (Hbig : 2 < 256 ^ 125) by (vm_compute; reflexivity).
  set (x := mkDss_Parms (from_bytes bp) (from_bytes bq) (from_bytes bg)).
  destruct (encode_Dss_Parms_decode x (256 ^ 125)) as (e & He & Hd);
    [simpl; lia .. | rewrite der_length_limit_eq; lia |].
  exists e. split.
  - unfold encode_dsa_domain_parameters, getitem. rewrite HBg, HBp, HBq. exact He.
  - rewrite <- (app_nil_r e). apply Hd.
Qed.

Lemma domain_parameters_wire_order_witness :
  encode_dsa_domain_parameters
    (<[BASE := [x02]]> (<[PRIME := [x07]]> (<[SUBPRIME := [x03]]> (∅ : attrs)))) =
    Ok [x30; x09; x02; x01; x07; x02; x01; x03; x02; x01; x02] /\
  decode_Dss_Parms [x30; x09; x02; x01; x07; x02; x01; x03; x02; x01; x02] =
    Ok (mkDss_Parms 7 3 2, []).
Proof.
  destruct (domain_parameters_wire_order
              (<[BASE := [x02]]> (<[PRIME := [x07]]> (<[SUBPRIME := [x03]]> (∅ : attrs))))
              [x02] [x07] [x03]) as (der & He & Hd); try (vm_compute; reflexivity).
  rewrite He in *. vm_compute in He. injection He as <-. split; [reflexivity | exact Hd].
Defined.
